(** * TodoList.tsx: a shallow embedding of the todo list component

    The component of [src/client/components/TodoList.tsx] is a React function
    component.  It is embedded here as

    - a pure function [TodoList] from the component's hook state
      ([selectedStatus]) and the result of the [api.todo.getAll.useQuery] hook
      to the query it subscribes to and the element tree it returns, and
    - the event handlers of that tree, which are lists of [Effect]s performed
      by a step function [step] on the mounted component.

    Values are kept as the running program has them: a status is a string
    (the type [TodoStatus] is a union of two string literals, and the tab
    value is cast to it unchecked), an identifier is an integer, a class name
    is the string the template literal evaluates to. *)

From Stdlib Require Import Ascii.
From Stdlib Require QArith.
From stdpp Require Import base tactics option list strings pretty gmap.

Local Open Scope string_scope.
Local Open Scope Z_scope.

(** ** Values *)

(** [a === b] on strings. *)
Definition strict_eq (a b : string) : bool := bool_decide (a = b).
Infix "===" := strict_eq (at level 70, no associativity).

(** [type TodoStatus = 'completed' | 'pending'] *)
Abbreviation TodoStatus := string.

Definition is_TodoStatus (s : string) : Prop :=
  s = "completed" ∨ s = "pending".

(** [TodoStatus | 'all'], the type of [selectedStatus]. *)
Definition is_filter (s : string) : Prop :=
  s = "all" ∨ s = "pending" ∨ s = "completed".

(** An element of the [data] array of [api.todo.getAll]. *)
Record Todo := {
  id : Z;
  body : string;
  status : TodoStatus;
}.

(** ** Remote procedures and effects *)

(** The procedures of the [api] client that this file names: the two it is
    told to use (lines 19-20), [api.todo.create] of the sibling form
    component (line 23) and [api.todo.delete] (line 46). *)
Inductive Procedure :=
  | todo_getAll
  | todo_create
  | todo_delete
  | todoStatus_update.

Global Instance Procedure_eq_dec : EqDecision Procedure.
Proof. solve_decision. Defined.

(** The input objects the component builds. *)
Inductive Input :=
  | GetAllInput (statuses : list string)          (* { statuses } *)
  | UpdateInput (todoId : Z) (status : TodoStatus) (* { todoId, status } *)
  | DeleteInput (id : Z).                          (* { id } *)

(** What a render or an event handler of the component does. *)
Inductive Effect :=
  | UseQuery (p : Procedure) (input : Input)  (* api.<p>.useQuery(input) *)
  | Mutate (p : Procedure) (input : Input)    (* mutate of api.<p>.useMutation *)
  | Refetch (p : Procedure)                   (* apiContext.<p>.refetch() *)
  | SetSelectedStatus (value : string)        (* setter of the useState hook *)
  | AutoAnimate.                              (* autoAnimate(listRef.current) *)

(** The remote procedure an effect invokes, if any. *)
Definition remote (e : Effect) : option Procedure :=
  match e with
  | UseQuery p _ | Mutate p _ | Refetch p => Some p
  | SetSelectedStatus _ | AutoAnimate => None
  end.

(** ** The body of the component, lines 72-112 *)

(** [useState<TodoStatus | 'all'>('all')] *)
Definition initial_selectedStatus : string := "all".

(** The [statuses] field of the query input, lines 77-78. *)
Definition statuses (selectedStatus : string) : list string :=
  if selectedStatus === "all" then ["completed"; "pending"]
  else [selectedStatus].

(** [mutate] of [api.todoStatus.update.useMutation], line 82. *)
Definition updateTodoStatus (input : Input) : Effect :=
  Mutate todoStatus_update input.

(** [mutate] of [api.todo.delete.useMutation], line 87. *)
Definition deleteTodo (input : Input) : Effect :=
  Mutate todo_delete input.

(** The [onSuccess] callback given to [useMutation] for procedure [p]: the
    component registers one for [todoStatus.update] (lines 83-85) and one for
    [todo.delete] (lines 88-90), and has no mutation hook for the others. *)
Definition onSuccess (p : Procedure) : list Effect :=
  match p with
  | todoStatus_update => [Refetch todo_getAll]
  | todo_delete => [Refetch todo_getAll]
  | todo_getAll | todo_create => []
  end.

(** The status [handleStatusChange] sends, line 96. *)
Definition flip_status (currentStatus : TodoStatus) : TodoStatus :=
  if currentStatus === "pending" then "completed" else "pending".

Definition handleStatusChange (todoId : Z) (currentStatus : TodoStatus)
  : list Effect :=
  [updateTodoStatus (UpdateInput todoId (flip_status currentStatus))].

Definition handleDelete (todoId : Z) : list Effect :=
  [deleteTodo (DeleteInput todoId)].

(** The effect of lines 108-112, run after mount: [listRef_current] tells
    whether the ref holds a list element. *)
Definition useEffect_body (listRef_current : bool) : list Effect :=
  if listRef_current then [AutoAnimate] else [].

(** ** The element tree, lines 114-309 *)

(** The pieces of a template literal are joined by [+:+]; [nl] is its line
    break and [sp n] the [n] blanks that indent a continuation line. *)
Definition nl : string := String "010"%char "".

Fixpoint sp (n : nat) : string :=
  match n with
  | O => ""
  | S n' => String " "%char (sp n')
  end.

(** A [Tabs.Trigger] element. *)
Record Trigger := {
  trigger_value : string;
  trigger_className : string;
  trigger_text : string;
}.

(** A [li] element of a list: its [div], [Checkbox.Root], [label] and
    [button] children flattened into one record.  A handler is the list of
    effects it performs when the element fires it. *)
Record Item := {
  key : Z;
  div_className : string;
  checkbox_id : string;
  checked : bool;
  onCheckedChange : list Effect;
  checkbox_className : string;
  label_className : string;
  htmlFor : string;
  label_text : string;
  button_className : string;
  onClick : list Effect;
  aria_label : string;
}.

(** A [Tabs.Content] element with the items of its [ul]. *)
Record Content := {
  content_value : string;
  content_items : list Item;
}.

(** The [Tabs.Root] element. *)
Record Tabs := {
  defaultValue : string;
  onValueChange : string → list Effect;
  triggers : list Trigger;
  contents : list Content;
}.

(** The three triggers, lines 123-158; [px] and [py] are the two classes in
    which they differ. *)
Definition trigger (value text px py selectedStatus : string) : Trigger :=
  {| trigger_value := value;
     trigger_className :=
       "rounded-full border border-gray-300 " +:+ px +:+ " " +:+ py +:+
       " text-sm font-bold transition-colors duration-300 focus:outline-none"
       +:+ nl +:+ sp 14 +:+
       (if selectedStatus === value
        then "bg-blue-600 bg-gray-700 text-white"
        else "bg-white text-gray-800")
       +:+ nl +:+ sp 14 +:+ "mb-8";
     trigger_text := text |}.

Definition checkbox_static : string :=
  "flex h-6 w-6 items-center justify-center rounded-6 border border-gray-300 focus:border-gray-700 focus:outline-none data-[state=checked]:border-gray-700 data-[state=checked]:bg-gray-700".

Definition button_static : string :=
  "hover:text-red-500 ml-auto p-1 text-gray-500".

(** [String(todo.id)] is [pretty (id todo)]: the decimal digits of the
    integer, after a minus sign when it is negative. *)

(** The arrow function mapped over [todos] in the "all" tab, lines 162-208. *)
Definition all_item (todo : Todo) : Item :=
  {| key := id todo;
     div_className :=
       "flex items-center rounded-12 border border-gray-200 px-4 py-3 shadow-sm "
       +:+ (if status todo === "completed" then "bg" else "");
     checkbox_id := pretty (id todo);
     checked := status todo === "completed";
     onCheckedChange := handleStatusChange (id todo) (status todo);
     checkbox_className :=
       "flex h-6 w-6 items-center justify-center rounded-6 border focus:outline-none"
       +:+ nl +:+ sp 24 +:+
       (if status todo === "completed" then "bg-gray-700" else "bg-white")
       +:+ nl +:+ sp 24 +:+ "transition-colors duration-300";
     label_className :=
       "block pl-3 font-medium "
       +:+ (if status todo === "completed"
            then "text-gray-500 line-through" else "");
     htmlFor := pretty (id todo);
     label_text := body todo;
     button_className := button_static;
     onClick := handleDelete (id todo);
     aria_label := "Delete todo" |}.

(** The arrow function of the "pending" tab, lines 215-255. *)
Definition pending_item (todo : Todo) : Item :=
  {| key := id todo;
     div_className :=
       "flex items-center rounded-12 border border-gray-200 px-4 py-3 shadow-sm "
       +:+ (if status todo === "completed" then "bg-gray-700" else "");
     checkbox_id := pretty (id todo);
     checked := status todo === "completed";
     onCheckedChange := handleStatusChange (id todo) (status todo);
     checkbox_className := checkbox_static;
     label_className :=
       "block pl-3 font-medium "
       +:+ (if status todo === "completed"
            then "line-through-custom text-white" else "");
     htmlFor := pretty (id todo);
     label_text := body todo;
     button_className := button_static;
     onClick := handleDelete (id todo);
     aria_label := "Delete todo" |}.

(** The arrow function of the "completed" tab, lines 262-304. *)
Definition completed_item (todo : Todo) : Item :=
  {| key := id todo;
     div_className :=
       "flex items-center rounded-12 border border-gray-300 px-4 py-3 shadow-sm "
       +:+ (if status todo === "completed"
            then "text-gray-500 line-through" else "");
     checkbox_id := pretty (id todo);
     checked := status todo === "completed";
     onCheckedChange := handleStatusChange (id todo) (status todo);
     checkbox_className := checkbox_static;
     label_className :=
       "block pl-3 font-medium "
       +:+ (if status todo === "completed"
            then "line-through-custom text-gray-500" else "");
     htmlFor := pretty (id todo);
     label_text := body todo;
     button_className := button_static;
     onClick := handleDelete (id todo);
     aria_label := "Delete todo" |}.

(** The contents of the three tabs, lines 160-306.  A [bool] is read as a
    proposition, so [filter] takes the callback of the source as it is. *)
Definition all_content (todos : list Todo) : Content :=
  {| content_value := "all";
     content_items := all_item <$> todos |}.

Definition pending_content (todos : list Todo) : Content :=
  {| content_value := "pending";
     content_items :=
       pending_item <$> filter (λ todo, status todo === "pending") todos |}.

Definition completed_content (todos : list Todo) : Content :=
  {| content_value := "completed";
     content_items :=
       completed_item <$> filter (λ todo, status todo === "completed") todos |}.

(** What a render returns: the query it subscribes to and its tree. *)
Record Rendered := {
  queries : list Effect;
  tabs : Tabs;
}.

(** The result of [api.todo.getAll.useQuery]: for each [statuses] input, the
    [data] field, absent while nothing has been fetched. *)
Abbreviation UseQueryResult := (list string → option (list Todo)).

(** [const { data: todos = [] } = api.todo.getAll.useQuery({ statuses })] *)
Definition fetched (useQuery : UseQueryResult) (selectedStatus : string)
  : list Todo :=
  default [] (useQuery (statuses selectedStatus)).

(** The component. *)
Definition TodoList (selectedStatus : string) (useQuery : UseQueryResult)
  : Rendered :=
  let todos := fetched useQuery selectedStatus in
  {| queries := [UseQuery todo_getAll (GetAllInput (statuses selectedStatus))];
     tabs :=
       {| defaultValue := "all";
          onValueChange := λ value, [SetSelectedStatus value];
          triggers :=
            [ trigger "all" "All" "px-6" "py-2" selectedStatus;
              trigger "pending" "Pending" "px-5" "py-2" selectedStatus;
              trigger "completed" "Completed" "px-6" "py-1" selectedStatus ];
          contents :=
            [ all_content todos;
              pending_content todos;
              completed_content todos ] |} |}.

(** ** The mounted component *)

(** The state behind a mounted [TodoList]: the value of its [useState] hook
    and the value the uncontrolled [Tabs.Root] keeps for it.  The contract of
    the tabs library, as used below: the root starts at [defaultValue];
    activating a trigger makes the trigger's value the root's value and fires
    [onValueChange] with it; a [Tabs.Content] is shown when its value is the
    root's value. *)
Record Mounted := {
  selectedStatus : string;
  tabs_value : string;
}.

Definition mount (useQuery : UseQueryResult) : Mounted :=
  {| selectedStatus := initial_selectedStatus;
     tabs_value := defaultValue (tabs (TodoList initial_selectedStatus useQuery)) |}.

(** The items on screen: those of the contents whose value is the root's. *)
Definition shown (t : Tabs) (value : string) : list Item :=
  concat (content_items <$> filter (λ c, content_value c === value) (contents t)).

Inductive Event :=
  | select_trigger (i : nat)        (* the i-th [Tabs.Trigger] is activated *)
  | toggle_checkbox (i : nat)       (* the checkbox of the i-th shown item *)
  | click_delete (i : nat)          (* the button of the i-th shown item *)
  | mutation_succeeded (p : Procedure).

(** One effect on the component's state: only the setter changes it. *)
Definition perform (st : Mounted) (e : Effect) : Mounted :=
  match e with
  | SetSelectedStatus value =>
      {| selectedStatus := value; tabs_value := tabs_value st |}
  | UseQuery _ _ | Mutate _ _ | Refetch _ | AutoAnimate => st
  end.

Definition run_handler (st : Mounted) (handler : list Effect)
  : Mounted * list Effect :=
  (foldl perform st handler, handler).

(** An event reaches the handler that the current render attached. *)
Definition step (useQuery : UseQueryResult) (st : Mounted) (ev : Event)
  : Mounted * list Effect :=
  let t := tabs (TodoList (selectedStatus st) useQuery) in
  match ev with
  | select_trigger i =>
      match triggers t !! i with
      | Some tr =>
          run_handler
            {| selectedStatus := selectedStatus st;
               tabs_value := trigger_value tr |}
            (onValueChange t (trigger_value tr))
      | None => (st, [])
      end
  | toggle_checkbox i =>
      match shown t (tabs_value st) !! i with
      | Some it => run_handler st (onCheckedChange it)
      | None => (st, [])
      end
  | click_delete i =>
      match shown t (tabs_value st) !! i with
      | Some it => run_handler st (onClick it)
      | None => (st, [])
      end
  | mutation_succeeded p => run_handler st (onSuccess p)
  end.

(** A session after mount: at each turn the query hook answers with
    [useQuery] and one event fires. *)
Abbreviation Trace := (list (UseQueryResult * Event)).

Fixpoint run (st : Mounted) (trace : Trace) : Mounted :=
  match trace with
  | [] => st
  | (useQuery, ev) :: trace' => run (step useQuery st ev).1 trace'
  end.

(** Everything the component does along a session: each render subscribes to
    its query, each event runs its handler. *)
Fixpoint effects (st : Mounted) (trace : Trace) : list Effect :=
  match trace with
  | [] => []
  | (useQuery, ev) :: trace' =>
      queries (TodoList (selectedStatus st) useQuery)
      ++ (step useQuery st ev).2
      ++ effects (step useQuery st ev).1 trace'
  end.

Definition session (useQuery : UseQueryResult) (trace : Trace) : list Effect :=
  queries (TodoList initial_selectedStatus useQuery)
  ++ useEffect_body true
  ++ effects (mount useQuery) trace.

(** ** Class names *)

Definition is_space (c : ascii) : bool :=
  bool_decide (c ∈ [" "; "009"; "010"; "012"; "013"]%char).

(** The tokens of a [class] attribute, split at white space; [cur] is the
    token being read. *)
Fixpoint split_classes (s cur : string) : list string :=
  match s with
  | EmptyString => if cur === "" then [] else [cur]
  | String c s' =>
      if is_space c
      then (if cur === "" then [] else [cur]) ++ split_classes s' ""
      else split_classes s' (cur +:+ String c "")
  end.

Definition classList (className : string) : list string :=
  split_classes className "".

(** The label is struck through by the utility class [line-through] or by
    the project's own class [line-through-custom]. *)
Definition line_through (className : string) : bool :=
  bool_decide (Exists (λ c, c = "line-through" ∨ c = "line-through-custom")
                 (classList className)).

(** ** What the specification expects *)

(** The narrowing the status filter is described to do. *)
Definition narrowed (filter_value : string) (todos : list Todo) : list Todo :=
  if filter_value === "pending"
  then filter (λ todo, status todo = "pending") todos
  else if filter_value === "completed"
  then filter (λ todo, status todo = "completed") todos
  else todos.

(** Item [it] is the rendering of [todo]. *)
Definition renders (todo : Todo) (it : Item) : Prop :=
  key it = id todo ∧ label_text it = body todo ∧
  checked it = (status todo === "completed") ∧
  onCheckedChange it = handleStatusChange (id todo) (status todo) ∧
  onClick it = handleDelete (id todo).

(** The renderer of the tab of value [v]: the "all" tab is the one left when
    [v] is neither of the two statuses. *)
Definition tab_item (v : string) : Todo → Item :=
  if v === "pending" then pending_item
  else if v === "completed" then completed_item
  else all_item.

(** The root of the tabs and the hook agree, on one of the three filters. *)
Definition synced (st : Mounted) : Prop :=
  tabs_value st = selectedStatus st ∧ is_filter (selectedStatus st).

(** The state a session reaches from mount. *)
Definition reached (q0 : UseQueryResult) (trace : Trace) : Mounted :=
  run (mount q0) trace.

(** The todos listed and the items on screen in the state a session reached,
    when the query hook answers with [q]. *)
Definition listed (q0 : UseQueryResult) (trace : Trace) (q : UseQueryResult)
  : list Todo :=
  narrowed (selectedStatus (reached q0 trace))
           (fetched q (selectedStatus (reached q0 trace))).

Definition screen (q0 : UseQueryResult) (trace : Trace) (q : UseQueryResult)
  : list Item :=
  shown (tabs (TodoList (selectedStatus (reached q0 trace)) q))
        (tabs_value (reached q0 trace)).

(** An effect that does not invoke [todo.create], the one procedure named in
    the file that the component has no hook for. *)
Definition not_create (e : Effect) : Prop := remote e ≠ Some todo_create.

(** ** A sample server *)

Definition sample : list Todo :=
  [ {| id := 1; body := "milk"; status := "pending" |};
    {| id := 2; body := "eggs"; status := "completed" |};
    {| id := -3; body := "tea"; status := "pending" |} ].

(** A query hook that has fetched, for each input, the sample todos of the
    statuses asked for. *)
Definition sample_query : UseQueryResult :=
  λ statuses, Some (filter (λ todo, status todo ∈ statuses) sample).

(** ** The icons, lines 312-348 *)








(** ** Notions for the further properties *)


(** An effect that fits the signatures of the procedures: a query for a
    non-empty list of distinct statuses, an update to a status, a delete, a
    refetch of the query, a filter given to the setter. *)
Definition well_formed (e : Effect) : Prop :=
  match e with
  | UseQuery todo_getAll (GetAllInput sts) =>
      sts ≠ [] ∧ NoDup sts ∧ Forall is_TodoStatus sts
  | Mutate todoStatus_update (UpdateInput _ s) => is_TodoStatus s
  | Mutate todo_delete (DeleteInput _) => True
  | Refetch todo_getAll => True
  | SetSelectedStatus v => is_filter v
  | AutoAnimate => True
  | UseQuery _ _ | Mutate _ _ | Refetch _ => False
  end.

(** The todo a mutation is about. *)
Definition target (e : Effect) : option Z :=
  match e with
  | Mutate _ (UpdateInput i _) | Mutate _ (DeleteInput i) => Some i
  | _ => None
  end.

Definition is_mutate (e : Effect) : bool :=
  match e with Mutate _ _ => true | _ => false end.

Definition is_refetch (e : Effect) : bool :=
  match e with Refetch _ => true | _ => false end.

Definition is_animate (e : Effect) : bool :=
  match e with AutoAnimate => true | _ => false end.

(** A checkbox or a delete button fired. *)
Definition item_event (turn : UseQueryResult * Event) : bool :=
  match turn.2 with
  | toggle_checkbox _ | click_delete _ => true
  | select_trigger _ | mutation_succeeded _ => false
  end.

(** One of the component's two mutations succeeded. *)
Definition success_event (turn : UseQueryResult * Event) : bool :=
  match turn.2 with
  | mutation_succeeded todoStatus_update | mutation_succeeded todo_delete => true
  | _ => false
  end.

(** A query hook whose answers hold only todos of the statuses asked for. *)
Definition honours_statuses (q : UseQueryResult) : Prop :=
  ∀ sts, Forall (λ todo, status todo ∈ sts) (default [] (q sts)).

(** One of the three arrow functions mapped over the todos. *)
Definition renderer (item : Todo → Item) : Prop :=
  item = all_item ∨ item = pending_item ∨ item = completed_item.

(** ** Tactics *)

(** Case analysis on the value of a tab or of the filter: the three literals
    of the source, then anything else. *)
Ltac case_value v :=
  destruct (v === "all") eqn:?Eall;
    [apply bool_decide_eq_true in Eall; subst v
    |destruct (v === "pending") eqn:?Epending;
       [apply bool_decide_eq_true in Epending; subst v
       |destruct (v === "completed") eqn:?Ecompleted;
          [apply bool_decide_eq_true in Ecompleted; subst v|]]].

(** Comparisons of two literals are decided by evaluation. *)
Ltac eval_strict_eq :=
  repeat match goal with
    | |- context [?a === ?b] =>
        let r := eval vm_compute in (a === b) in
        match r with true => idtac | false => idtac end;
        change (a === b) with r
    end;
  cbv iota.

(** A goal about each effect of a list that is written out. *)
Ltac each_effect := repeat (apply Forall_cons_2 || apply Forall_nil_2).

Create HintDb todo discriminated.

(** ** The component on the sample *)

Example sample_all_keys :
  key <$> screen sample_query [] sample_query = [1; 2; -3].
Proof. reflexivity. Qed.

Example sample_pending_keys :
  key <$> screen sample_query [(sample_query, select_trigger 1%nat)] sample_query
  = [1; -3].
Proof. reflexivity. Qed.

Example sample_completed_item :
  (λ it, (checkbox_id it, checked it, label_className it, onCheckedChange it))
    <$> screen sample_query [(sample_query, select_trigger 2%nat)] sample_query
  = [("2", true, "block pl-3 font-medium line-through-custom text-gray-500",
      [Mutate todoStatus_update (UpdateInput 2 "pending")])].
Proof. reflexivity. Qed.

Example sample_session :
  session sample_query
    [(sample_query, select_trigger 2%nat);
     (sample_query, click_delete 0%nat);
     (sample_query, mutation_succeeded todo_delete)]
  = [UseQuery todo_getAll (GetAllInput ["completed"; "pending"]);
     AutoAnimate;
     UseQuery todo_getAll (GetAllInput ["completed"; "pending"]);
     SetSelectedStatus "completed";
     UseQuery todo_getAll (GetAllInput ["completed"]);
     Mutate todo_delete (DeleteInput 2);
     UseQuery todo_getAll (GetAllInput ["completed"]);
     Refetch todo_getAll].
Proof. reflexivity. Qed.

Example sample_trigger_classes :
  classList (trigger_className (trigger "all" "All" "px-6" "py-2" "all"))
  = ["rounded-full"; "border"; "border-gray-300"; "px-6"; "py-2"; "text-sm";
     "font-bold"; "transition-colors"; "duration-300"; "focus:outline-none";
     "bg-blue-600"; "bg-gray-700"; "text-white"; "mb-8"].
Proof. reflexivity. Qed.

(** Outside the two statuses the flip is not an involution. *)
Example flip_twice_other : flip_status (flip_status "all") = "completed".
Proof. reflexivity. Qed.

(** ** Comparison and the flip *)

Lemma strict_eq_true (a b : string) : (a === b) = true ↔ a = b.
Proof. apply bool_decide_eq_true. Qed.

Lemma strict_eq_false (a b : string) : (a === b) = false ↔ a ≠ b.
Proof. apply bool_decide_eq_false. Qed.

Lemma strict_eq_Is_true (a b : string) : Is_true (a === b) ↔ a = b.
Proof. apply bool_decide_spec. Qed.

Lemma flip_status_neq (s : string) : flip_status s ≠ s.
Proof.
  unfold flip_status. destruct (s === "pending") eqn:E.
  - apply strict_eq_true in E. subst s. discriminate.
  - apply strict_eq_false in E. congruence.
Qed.

(** The source filters with a [bool] callback, the description with a
    proposition; the two agree. *)
Lemma filter_status (s : string) (todos : list Todo) :
  filter (λ todo, status todo === s) todos =
  filter (λ todo, status todo = s) todos.
Proof. apply list_filter_iff. intros todo. apply strict_eq_Is_true. Qed.

Lemma fmap_sublist {A B : Type} (f : A → B) (l k : list A) :
  l `sublist_of` k → f <$> l `sublist_of` f <$> k.
Proof.
  induction 1 as [|x l k _ IH|x l k _ IH]; cbn.
  - constructor.
  - by apply sublist_skip.
  - by apply sublist_cons.
Qed.

(** ** The renderers *)

Lemma all_item_renders (todo : Todo) : renders todo (all_item todo).
Proof. repeat split. Qed.

Lemma pending_item_renders (todo : Todo) : renders todo (pending_item todo).
Proof. repeat split. Qed.

Lemma completed_item_renders (todo : Todo) : renders todo (completed_item todo).
Proof. repeat split. Qed.

Lemma tab_item_renders (v : string) (todo : Todo) : renders todo (tab_item v todo).
Proof.
  unfold tab_item.
  destruct (v === "pending"); [|destruct (v === "completed")]; repeat split.
Qed.

#[export] Hint Resolve all_item_renders pending_item_renders
  completed_item_renders tab_item_renders : todo.

Lemma Forall2_fmap_renders (item : Todo → Item) (todos : list Todo) :
  (∀ todo, renders todo (item todo)) → Forall2 renders todos (item <$> todos).
Proof.
  intros H. apply Forall2_fmap_r, Forall_Forall2_diag, Forall_forall.
  intros todo _. apply H.
Qed.

Lemma tab_item_checked (v : string) (todo : Todo) :
  checked (tab_item v todo) = (status todo === "completed").
Proof. apply (tab_item_renders v todo). Qed.

Lemma tab_item_line_through (v : string) (todo : Todo) :
  line_through (label_className (tab_item v todo))
  = (status todo === "completed").
Proof.
  unfold tab_item.
  destruct (v === "pending"); [|destruct (v === "completed")];
    cbn [label_className pending_item completed_item all_item];
    destruct (status todo === "completed"); vm_compute; reflexivity.
Qed.

(** A handler of a rendered item performs its effects and leaves the state
    alone. *)
Lemma item_handlers_frame (todo : Todo) (it : Item) (st : Mounted) :
  renders todo it →
  run_handler st (onCheckedChange it) = (st, onCheckedChange it) ∧
  run_handler st (onClick it) = (st, onClick it).
Proof. intros (_ & _ & _ & H1 & H2). rewrite H1, H2. split; reflexivity. Qed.

(** ** The tree of a render *)

Section tree.
Context (sel : string) (q : UseQueryResult).

Lemma trigger_values :
  trigger_value <$> triggers (tabs (TodoList sel q))
  = ["all"; "pending"; "completed"].
Proof. reflexivity. Qed.

(** The items on screen, by the value of the root. *)
Lemma shown_cases (v : string) :
  shown (tabs (TodoList sel q)) v =
  if v === "all" then all_item <$> fetched q sel
  else if v === "pending"
  then (pending_item <$>
        filter (λ todo, status todo === "pending") (fetched q sel))
  else if v === "completed"
  then (completed_item <$>
        filter (λ todo, status todo === "completed") (fetched q sel))
  else [].
Proof.
  unfold shown, TodoList. cbn [tabs contents].
  rewrite !filter_cons, filter_nil.
  cbn [content_value all_content pending_content completed_content].
  case_value v; try (cbn; apply app_nil_r).
  apply strict_eq_false in Eall, Epending, Ecompleted.
  repeat match goal with
    | |- context [decide ?P] =>
        destruct (decide P) as [HP|_];
        [apply strict_eq_Is_true in HP; congruence|]
    end.
  reflexivity.
Qed.

(** On screen are the renderings of the narrowed list, whenever the root's
    value is one of the three filters. *)
Lemma shown_fmap (v : string) :
  is_filter v →
  shown (tabs (TodoList sel q)) v = tab_item v <$> narrowed v (fetched q sel).
Proof.
  intros Hv. rewrite shown_cases. unfold narrowed, tab_item.
  destruct Hv as [->|[->| ->]]; eval_strict_eq; rewrite <- ?filter_status;
    reflexivity.
Qed.

(** Whatever the root's value, an item on screen renders some todo. *)
Lemma shown_renders (v : string) (i : nat) (it : Item) :
  shown (tabs (TodoList sel q)) v !! i = Some it → ∃ todo, renders todo it.
Proof.
  rewrite shown_cases. intros H.
  case_value v; try discriminate;
    apply list_lookup_fmap_Some in H as (todo & -> & _); exists todo;
    auto with todo.
Qed.
End tree.

(** An item on screen renders one of the fetched todos. *)
Lemma shown_from_fetched
    (sel v : string) (q : UseQueryResult) (i : nat) (it : Item) :
  shown (tabs (TodoList sel q)) v !! i = Some it →
  ∃ todo, todo ∈ fetched q sel ∧ renders todo it.
Proof.
  rewrite shown_cases. intros H.
  case_value v; try discriminate;
    apply list_lookup_fmap_Some in H as (todo & -> & H);
    apply list_elem_of_lookup_2 in H; exists todo;
    (split; [|auto with todo]); try done;
    by apply list_elem_of_filter in H as [_ H].
Qed.

(** ** Steps and sessions *)

Section steps.
Context (q : UseQueryResult) (st : Mounted).

(** What each event does. *)
Lemma step_cases (ev : Event) :
  step q st ev =
  match ev with
  | select_trigger i =>
      match ["all"; "pending"; "completed"] !! i with
      | Some v =>
          ({| selectedStatus := v; tabs_value := v |}, [SetSelectedStatus v])
      | None => (st, [])
      end
  | toggle_checkbox i =>
      (st, from_option onCheckedChange []
             (shown (tabs (TodoList (selectedStatus st) q)) (tabs_value st)
                !! i))
  | click_delete i =>
      (st, from_option onClick []
             (shown (tabs (TodoList (selectedStatus st) q)) (tabs_value st)
                !! i))
  | mutation_succeeded p => (st, onSuccess p)
  end.
Proof.
  destruct ev as [i|i|i|p]; unfold step.
  - destruct i as [|[|[|i]]]; reflexivity.
  - destruct (shown _ _ !! i) as [it|] eqn:E; [|reflexivity].
    apply shown_renders in E as [todo H].
    apply (item_handlers_frame todo it st H).
  - destruct (shown _ _ !! i) as [it|] eqn:E; [|reflexivity].
    apply shown_renders in E as [todo H].
    apply (item_handlers_frame todo it st H).
  - destruct p; reflexivity.
Qed.

Lemma step_selectedStatus (ev : Event) :
  selectedStatus (step q st ev).1 =
  match ev with
  | select_trigger i =>
      default (selectedStatus st) (["all"; "pending"; "completed"] !! i)
  | toggle_checkbox _ | click_delete _ | mutation_succeeded _ =>
      selectedStatus st
  end.
Proof.
  rewrite step_cases. destruct ev as [i|i|i|p]; try reflexivity.
  destruct i as [|[|[|i]]]; reflexivity.
Qed.

Lemma step_synced (ev : Event) : synced st → synced (step q st ev).1.
Proof.
  intros [Htab Hsel]. rewrite step_cases.
  destruct ev as [i|i|i|p]; try done.
  destruct i as [|[|[|i]]]; cbn; unfold synced, is_filter; cbn; auto.
Qed.

Lemma step_not_create (ev : Event) : Forall not_create (step q st ev).2.
Proof.
  rewrite step_cases. destruct ev as [i|i|i|p]; cbn [snd].
  - destruct i as [|[|[|i]]]; cbn; repeat constructor; discriminate.
  - destruct (shown _ _ !! i) as [it|] eqn:E; [|constructor].
    apply shown_renders in E as (todo & _ & _ & _ & H & _).
    cbn [from_option]. rewrite H. repeat constructor; discriminate.
  - destruct (shown _ _ !! i) as [it|] eqn:E; [|constructor].
    apply shown_renders in E as (todo & _ & _ & _ & _ & H).
    cbn [from_option]. rewrite H. repeat constructor; discriminate.
  - destruct p; cbn; repeat constructor; discriminate.
Qed.
End steps.

Lemma mount_synced (q : UseQueryResult) : synced (mount q).
Proof. split; [reflexivity|left; reflexivity]. Qed.

Lemma run_synced (trace : Trace) (st : Mounted) :
  synced st → synced (run st trace).
Proof.
  revert st. induction trace as [|[q ev] trace IH]; intros st H; [done|].
  cbn. apply IH, step_synced, H.
Qed.

Lemma reached_synced (q0 : UseQueryResult) (trace : Trace) :
  synced (reached q0 trace).
Proof. apply run_synced, mount_synced. Qed.

(** What is on screen in a reached state. *)
Lemma screen_fmap (q0 q : UseQueryResult) (trace : Trace) :
  screen q0 trace q
  = tab_item (selectedStatus (reached q0 trace)) <$> listed q0 trace q.
Proof.
  unfold screen, listed.
  destruct (reached_synced q0 trace) as [-> Hsel]. by apply shown_fmap.
Qed.

Lemma effects_not_create (trace : Trace) (st : Mounted) :
  Forall not_create (effects st trace).
Proof.
  revert st. induction trace as [|[q ev] trace IH]; intros st; [constructor|].
  cbn [effects]. rewrite !Forall_app. split; [|split].
  - repeat constructor; discriminate.
  - apply step_not_create.
  - apply IH.
Qed.

Lemma session_not_create (q0 : UseQueryResult) (trace : Trace) :
  Forall not_create (session q0 trace).
Proof.
  unfold session. rewrite !Forall_app. split; [|split].
  - repeat constructor; discriminate.
  - repeat constructor; discriminate.
  - apply effects_not_create.
Qed.

(** ** The claims *)

(** C1. [handleStatusChange todoId currentStatus] performs one call, the
    update-status mutation for [todoId]; the status it carries is
    ['completed'] for ['pending'] and ['pending'] for ['completed'], and is
    never [currentStatus].  Every checkbox is wired to it with the id and the
    status of its own todo. *)
Theorem handleStatusChange_sends_opposite
    (todoId : Z) (currentStatus : TodoStatus) (v : string) (todo : Todo) :
  handleStatusChange todoId "pending"
    = [Mutate todoStatus_update (UpdateInput todoId "completed")] ∧
  handleStatusChange todoId "completed"
    = [Mutate todoStatus_update (UpdateInput todoId "pending")] ∧
  (∃ sent,
     handleStatusChange todoId currentStatus
       = [Mutate todoStatus_update (UpdateInput todoId sent)] ∧
     sent ≠ currentStatus) ∧
  onCheckedChange (tab_item v todo)
    = handleStatusChange (id todo) (status todo).
Proof.
  split; [reflexivity|]. split; [reflexivity|]. split.
  - exists (flip_status currentStatus). split; [reflexivity|].
    apply flip_status_neq.
  - apply (tab_item_renders v todo).
Qed.

(** C2. In every state a session reaches, the items on screen are the
    renderings, one for one, of the fetched todos narrowed by the selected
    filter: those of status ['pending'] under ['pending'], those of status
    ['completed'] under ['completed'], all of them under ['all']; and each of
    the three filters is reached by some session. *)
Theorem screen_narrowed_by_filter (q0 q : UseQueryResult) (trace : Trace) :
  Forall2 renders (listed q0 trace q) (screen q0 trace q) ∧
  narrowed "pending" (fetched q "pending")
    = filter (λ todo, status todo = "pending") (fetched q "pending") ∧
  narrowed "completed" (fetched q "completed")
    = filter (λ todo, status todo = "completed") (fetched q "completed") ∧
  narrowed "all" (fetched q "all") = fetched q "all" ∧
  Forall (λ v, ∃ trace', selectedStatus (reached q0 trace') = v)
         ["all"; "pending"; "completed"].
Proof.
  split; [|split; [reflexivity|split; [reflexivity|split; [reflexivity|]]]].
  - rewrite screen_fmap. apply Forall2_fmap_renders, tab_item_renders.
  - repeat apply Forall_cons_2; [| | |apply Forall_nil_2].
    + by exists [].
    + by exists [(q0, select_trigger 1%nat)].
    + by exists [(q0, select_trigger 2%nat)].
Qed.

(** C3. For every todo on screen the checkbox is checked exactly when the
    status is ['completed'], and the label carries a line-through class
    exactly when the status is ['completed']; the same holds of the renderer
    of each tab on any todo. *)
Theorem checkbox_and_line_through_from_status
    (q0 q : UseQueryResult) (trace : Trace) (v : string) (todo : Todo) :
  Forall2 (λ todo it,
             (checked it = true ↔ status todo = "completed") ∧
             (line_through (label_className it) = true
              ↔ status todo = "completed"))
          (listed q0 trace q) (screen q0 trace q) ∧
  (checked (tab_item v todo) = true ↔ status todo = "completed") ∧
  (line_through (label_className (tab_item v todo)) = true
   ↔ status todo = "completed").
Proof.
  split.
  - rewrite screen_fmap. apply Forall2_fmap_r, Forall_Forall2_diag, Forall_forall.
    intros t _. unfold compose.
    rewrite tab_item_checked, tab_item_line_through.
    split; apply strict_eq_true.
  - rewrite tab_item_checked, tab_item_line_through.
    split; apply strict_eq_true.
Qed.

(** C4. The query of a render is [todo.getAll] with [statuses] computed from
    the selected filter alone: both statuses for ['all'], and otherwise the
    one-element list of the selected status. *)
Theorem statuses_from_filter (sel : string) (q : UseQueryResult) :
  queries (TodoList sel q) = [UseQuery todo_getAll (GetAllInput (statuses sel))] ∧
  statuses "all" = ["completed"; "pending"] ∧
  (sel ≠ "all" → statuses sel = [sel]).
Proof.
  split; [reflexivity|]. split; [reflexivity|].
  intros H. unfold statuses. apply strict_eq_false in H. by rewrite H.
Qed.

Lemma statuses_from_filter_witness :
  "pending" ≠ "all" ∧ statuses "pending" = ["pending"].
Proof.
  split; [discriminate|].
  apply (statuses_from_filter "pending" (λ _, None)). discriminate.
Defined.

(** C5. In every state a session reaches, the checkbox and the button of a
    listed todo each perform one remote mutation carrying that todo's id and
    leave the state of the component as it was; the success of either
    mutation performs one refetch of [todo.getAll], again with the state
    unchanged.  The state has no todo list in it. *)
Theorem handlers_mutate_then_refetch
    (q0 q : UseQueryResult) (trace : Trace) (i : nat) (todo : Todo) :
  listed q0 trace q !! i = Some todo →
  step q (reached q0 trace) (toggle_checkbox i)
    = (reached q0 trace,
       [Mutate todoStatus_update
          (UpdateInput (id todo) (flip_status (status todo)))]) ∧
  step q (reached q0 trace) (click_delete i)
    = (reached q0 trace, [Mutate todo_delete (DeleteInput (id todo))]) ∧
  step q (reached q0 trace) (mutation_succeeded todoStatus_update)
    = (reached q0 trace, [Refetch todo_getAll]) ∧
  step q (reached q0 trace) (mutation_succeeded todo_delete)
    = (reached q0 trace, [Refetch todo_getAll]).
Proof.
  intros Hi.
  assert (screen q0 trace q !! i
          = Some (tab_item (selectedStatus (reached q0 trace)) todo)) as Hit.
  { by rewrite screen_fmap, list_lookup_fmap, Hi. }
  unfold screen in Hit.
  destruct (tab_item_renders (selectedStatus (reached q0 trace)) todo)
    as (_ & _ & _ & Hchange & Hclick).
  rewrite !step_cases, Hit. cbn [from_option].
  rewrite Hchange, Hclick. repeat split.
Qed.

Lemma handlers_mutate_then_refetch_witness :
  let todo := {| id := 7; body := "milk"; status := "pending" |} in
  let q : UseQueryResult := λ _, Some [todo] in
  listed q [] q !! 0%nat = Some todo ∧
  step q (reached q []) (toggle_checkbox 0)
    = (reached q [], [Mutate todoStatus_update (UpdateInput 7 "completed")]).
Proof.
  intros todo q. split; [reflexivity|].
  apply (handlers_mutate_then_refetch q q [] 0%nat todo). reflexivity.
Defined.

(** C6. The selected filter starts at ['all'] on every mount, whatever the
    query hook returns and whatever happened before; a step changes it only
    when a trigger is activated, and then to that trigger's value, which is
    one of ['all'], ['pending'], ['completed']; so it is one of these three in
    every state a session reaches.  The value is written nowhere else: the
    tab callback performs nothing but the setter with the trigger's value; a
    render performs the one query, to which the filter gives the statuses;
    the effect after mount only animates; a checkbox or a delete button
    performs at most the mutation of a fetched todo, made of that todo's id
    and status; a success performs only refetches. *)
Theorem selectedStatus_local_view_state
    (q0 q : UseQueryResult) (trace : Trace) (st : Mounted) (ev : Event)
    (listRef_current : bool) :
  selectedStatus (mount q0) = "all" ∧
  mount q = mount q0 ∧
  selectedStatus (step q st ev).1 =
    match ev with
    | select_trigger i =>
        default (selectedStatus st)
          ((trigger_value <$> triggers (tabs (TodoList (selectedStatus st) q)))
             !! i)
    | toggle_checkbox _ | click_delete _ | mutation_succeeded _ =>
        selectedStatus st
    end ∧
  trigger_value <$> triggers (tabs (TodoList (selectedStatus st) q))
    = ["all"; "pending"; "completed"] ∧
  is_filter (selectedStatus (reached q0 trace)) ∧
  queries (TodoList (selectedStatus st) q)
    = [UseQuery todo_getAll (GetAllInput (statuses (selectedStatus st)))] ∧
  Forall (λ e, e = AutoAnimate) (useEffect_body listRef_current) ∧
  match ev with
  | select_trigger i =>
      Forall (λ e,
                Some e
                = SetSelectedStatus <$>
                    (trigger_value <$>
                       triggers (tabs (TodoList (selectedStatus st) q))) !! i)
             (step q st ev).2
  | toggle_checkbox _ =>
      (step q st ev).2 = [] ∨
      ∃ todo,
        todo ∈ fetched q (selectedStatus st) ∧
        (step q st ev).2
        = [Mutate todoStatus_update
             (UpdateInput (id todo) (flip_status (status todo)))]
  | click_delete _ =>
      (step q st ev).2 = [] ∨
      ∃ todo,
        todo ∈ fetched q (selectedStatus st) ∧
        (step q st ev).2 = [Mutate todo_delete (DeleteInput (id todo))]
  | mutation_succeeded _ =>
      Forall (λ e, e = Refetch todo_getAll) (step q st ev).2
  end.
Proof.
  split; [reflexivity|]. split; [reflexivity|]. split.
  { rewrite trigger_values. apply step_selectedStatus. }
  split; [apply trigger_values|]. split; [apply reached_synced|].
  split; [reflexivity|]. split.
  { destruct listRef_current; cbn; by each_effect. }
  rewrite step_cases, ?trigger_values. destruct ev as [i|i|i|p]; cbn [snd].
  - destruct i as [|[|[|i]]]; cbn; by each_effect.
  - destruct (shown _ _ !! i) as [it|] eqn:E; [right|by left].
    apply shown_from_fetched in E as (todo & Hin & _ & _ & _ & H & _).
    exists todo. split; [exact Hin|]. cbn [from_option]. by rewrite H.
  - destruct (shown _ _ !! i) as [it|] eqn:E; [right|by left].
    apply shown_from_fetched in E as (todo & Hin & _ & _ & _ & _ & H).
    exists todo. split; [exact Hin|]. cbn [from_option]. by rewrite H.
  - destruct p; cbn; by each_effect.
Qed.

(** C7. The remote procedures that sessions of the component invoke are
    exactly [todo.getAll], [todoStatus.update] and [todo.delete]. *)
Theorem three_remote_procedures (p : Procedure) :
  (∃ q0 trace, Some p ∈ remote <$> session q0 trace)
  ↔ p ∈ [todo_getAll; todoStatus_update; todo_delete].
Proof.
  split.
  - intros (q0 & trace & Hp).
    apply list_elem_of_fmap in Hp as (e & He & Hin).
    pose proof (session_not_create q0 trace) as Hall.
    rewrite Forall_forall in Hall. specialize (Hall e Hin).
    unfold not_create in Hall. rewrite <- He in Hall.
    destruct p; [| congruence | |]; compute_done.
  - pose (todo := {| id := 1; body := "a"; status := "pending" |}).
    pose (q := (λ _, Some [todo]) : UseQueryResult).
    intros Hp. exists q.
    destruct p.
    + exists []. compute_done.
    + exfalso. revert Hp. compute_done.
    + exists [(q, click_delete 0%nat)]. compute_done.
    + exists [(q, toggle_checkbox 0%nat)]. compute_done.
Qed.

(** C8. Whatever was fetched, the "pending" tab holds the renderings of the
    todos of status ['pending'] only, so each of its items takes the other
    branch of the three conditionals: the container has no [bg-gray-700], the
    checkbox is unchecked, and the label has neither [line-through-custom] nor
    [text-white]. *)
Theorem pending_tab_completed_branches_dead (sel : string) (q : UseQueryResult) :
  Forall2 (λ todo it, renders todo it ∧ status todo = "pending")
          (filter (λ todo, status todo = "pending") (fetched q sel))
          (shown (tabs (TodoList sel q)) "pending") ∧
  Forall (λ it,
            checked it = false ∧
            div_className it
              = "flex items-center rounded-12 border border-gray-200 px-4 py-3 shadow-sm " ∧
            label_className it = "block pl-3 font-medium " ∧
            ("bg-gray-700" ∉ classList (div_className it)) ∧
            ("line-through-custom" ∉ classList (label_className it)) ∧
            ("text-white" ∉ classList (label_className it)))
         (shown (tabs (TodoList sel q)) "pending").
Proof.
  rewrite shown_cases. eval_strict_eq. rewrite filter_status. split.
  - apply Forall2_fmap_r, Forall_Forall2_diag, Forall_forall.
    intros todo Hin. apply list_elem_of_filter in Hin as [Hst _].
    split; [apply pending_item_renders|exact Hst].
  - apply Forall_fmap, Forall_forall.
    intros todo Hin. apply list_elem_of_filter in Hin as [Hst _].
    unfold compose, pending_item.
    cbn [checked div_className label_className].
    rewrite Hst. eval_strict_eq.
    repeat split; compute_done.
Qed.

(** C9. On the two statuses the flip of [handleStatusChange] is an
    involution. *)
Theorem flip_status_involutive (s : TodoStatus) :
  is_TodoStatus s → flip_status (flip_status s) = s.
Proof. intros [-> | ->]; reflexivity. Qed.

Lemma flip_status_involutive_witness :
  is_TodoStatus "completed" ∧ flip_status (flip_status "completed") = "completed".
Proof.
  split; [left; reflexivity|].
  apply (flip_status_involutive "completed"). left; reflexivity.
Defined.

(** C10. Each of the three tabs lists renderings of a subsequence of the
    fetched list, in the order of that list; so do the keys of its items
    within the ids fetched. *)
Theorem tabs_keep_fetched_order (sel : string) (q : UseQueryResult) :
  Forall (λ c,
            ∃ todos',
              todos' `sublist_of` fetched q sel ∧
              Forall2 renders todos' (content_items c) ∧
              key <$> content_items c `sublist_of` id <$> fetched q sel)
         (contents (tabs (TodoList sel q))).
Proof.
  assert (∀ (item : Todo → Item) (todos' : list Todo),
            (∀ todo, renders todo (item todo)) →
            todos' `sublist_of` fetched q sel →
            todos' `sublist_of` fetched q sel ∧
            Forall2 renders todos' (item <$> todos') ∧
            key <$> (item <$> todos') `sublist_of` id <$> fetched q sel) as H.
  { intros item todos' Hitem Hsub. split; [done|]. split.
    - by apply Forall2_fmap_renders.
    - rewrite <- list_fmap_compose.
      rewrite (list_fmap_ext (key ∘ item) id todos').
      + by apply fmap_sublist.
      + intros i todo _. apply (Hitem todo). }
  cbn [TodoList tabs contents].
  repeat apply Forall_cons_2; [| | |apply Forall_nil_2].
  - exists (fetched q sel). apply (H all_item); auto with todo.
  - eexists. apply (H pending_item); [auto with todo|apply sublist_filter].
  - eexists. apply (H completed_item); [auto with todo|apply sublist_filter].
Qed.


(** ** Further properties of the component *)

(** *** The triggers, lines 123-158 *)



(** *** The icons, lines 312-348 *)



(** *** The three lists, lines 160-306 *)

Lemma filter_all {A : Type} (P : A → Prop) `{!∀ x, Decision (P x)} (l : list A) :
  Forall P l → filter P l = l.
Proof.
  induction 1 as [|x l Hx _ IH]; [done|].
  by rewrite filter_cons_True, IH.
Qed.

(** Every list of the tree maps one renderer over a subsequence of the
    fetched todos. *)
Lemma contents_fmap (sel : string) (q : UseQueryResult) :
  Forall (λ c, ∃ item todos',
            renderer item ∧ todos' `sublist_of` fetched q sel ∧
            content_items c = item <$> todos')
         (contents (tabs (TodoList sel q))).
Proof.
  cbn [TodoList tabs contents].
  repeat apply Forall_cons_2; [| | |apply Forall_nil_2].
  - exists all_item, (fetched q sel). unfold renderer. auto.
  - exists pending_item,
      (filter (λ todo, status todo === "pending") (fetched q sel)).
    unfold renderer. split; [auto|]. split; [apply sublist_filter|reflexivity].
  - exists completed_item,
      (filter (λ todo, status todo === "completed") (fetched q sel)).
    unfold renderer. split; [auto|]. split; [apply sublist_filter|reflexivity].
Qed.

Lemma renderer_ids (item : Todo → Item) (todo : Todo) :
  renderer item →
  key (item todo) = id todo ∧
  checkbox_id (item todo) = pretty (id todo) ∧
  htmlFor (item todo) = pretty (id todo).
Proof. intros [->|[->| ->]]; repeat split. Qed.

(** X3. In the "all" tab the checkbox of a todo has class [bg-gray-700] when
    the status is ['completed'] and [bg-white] otherwise, never both; the
    container of a completed todo gets the one class [bg] added and never
    [bg-gray-700]. *)
Theorem all_tab_status_classes (sel : string) (q : UseQueryResult) :
  Forall2 (λ todo it,
             bool_decide ("bg-gray-700" ∈ classList (checkbox_className it))
               = (status todo === "completed") ∧
             bool_decide ("bg-white" ∈ classList (checkbox_className it))
               = negb (status todo === "completed") ∧
             classList (div_className it)
               = (["flex"; "items-center"; "rounded-12"; "border";
                   "border-gray-200"; "px-4"; "py-3"; "shadow-sm"]
                  ++ (if status todo === "completed" then ["bg"] else []))%list ∧
             ("bg-gray-700" ∉ classList (div_className it)))
          (fetched q sel) (shown (tabs (TodoList sel q)) "all").
Proof.
  rewrite shown_cases. eval_strict_eq.
  apply Forall2_fmap_r, Forall_Forall2_diag, Forall_forall.
  intros todo _. unfold compose, all_item.
  cbn [checkbox_className div_className].
  destruct (status todo === "completed"); repeat split; compute_done.
Qed.

(** X4. Whatever was fetched, the "completed" tab holds the renderings of
    the todos of status ['completed'] only: each of its items is checked, its
    label carries [line-through-custom] and [text-gray-500] and not
    [line-through], and its container carries [line-through] and
    [text-gray-500]. *)
Theorem completed_tab_all_struck (sel : string) (q : UseQueryResult) :
  Forall2 (λ todo it, renders todo it ∧ status todo = "completed")
          (filter (λ todo, status todo = "completed") (fetched q sel))
          (shown (tabs (TodoList sel q)) "completed") ∧
  Forall (λ it,
            checked it = true ∧
            line_through (label_className it) = true ∧
            ("text-gray-500" ∈ classList (label_className it)) ∧
            ("line-through" ∈ classList (div_className it)) ∧
            classList (label_className it)
              = ["block"; "pl-3"; "font-medium"; "line-through-custom";
                 "text-gray-500"] ∧
            ("line-through-custom" ∈ classList (label_className it)) ∧
            ("line-through" ∉ classList (label_className it)) ∧
            classList (div_className it)
              = ["flex"; "items-center"; "rounded-12"; "border";
                 "border-gray-300"; "px-4"; "py-3"; "shadow-sm";
                 "text-gray-500"; "line-through"])
         (shown (tabs (TodoList sel q)) "completed").
Proof.
  rewrite shown_cases. eval_strict_eq. rewrite filter_status. split.
  - apply Forall2_fmap_r, Forall_Forall2_diag, Forall_forall.
    intros todo Hin. apply list_elem_of_filter in Hin as [Hst _].
    split; [apply completed_item_renders|exact Hst].
  - apply Forall_fmap, Forall_forall.
    intros todo Hin. apply list_elem_of_filter in Hin as [Hst _].
    unfold compose, completed_item.
    cbn [checked div_className label_className].
    rewrite Hst. eval_strict_eq.
    repeat split; compute_done.
Qed.

(** X5. While the query hook has no data for the current input, every list
    of the tree is empty, and firing a checkbox or a delete button does
    nothing. *)
Theorem no_data_empty_lists (q : UseQueryResult) (st : Mounted) (i : nat) :
  q (statuses (selectedStatus st)) = None →
  Forall (λ c, content_items c = [])
         (contents (tabs (TodoList (selectedStatus st) q))) ∧
  step q st (toggle_checkbox i) = (st, []) ∧
  step q st (click_delete i) = (st, []).
Proof.
  intros Hq.
  assert (fetched q (selectedStatus st) = []) as Hnil
    by (unfold fetched; by rewrite Hq).
  split.
  - cbn [TodoList tabs contents]. rewrite Hnil.
    repeat apply Forall_cons_2; [| | |apply Forall_nil_2]; reflexivity.
  - rewrite !step_cases, shown_cases, Hnil.
    generalize (tabs_value st). intros v. case_value v; split; reflexivity.
Qed.

Lemma no_data_empty_lists_witness :
  (λ _, None) (statuses (selectedStatus (mount (λ _, None)))) = @None (list Todo) ∧
  step (λ _, None) (mount (λ _, None)) (toggle_checkbox 0) = (mount (λ _, None), []).
Proof.
  split; [reflexivity|].
  apply (no_data_empty_lists (λ _, None) (mount (λ _, None)) 0%nat). reflexivity.
Defined.

(** X6. When the fetched todos have distinct ids, the keys of the items of
    each list are distinct and so are the ids of its checkboxes; each label
    names the checkbox of its own item. *)
Theorem distinct_ids_distinct_keys (sel : string) (q : UseQueryResult) :
  NoDup (id <$> fetched q sel) →
  Forall (λ c,
            NoDup (key <$> content_items c) ∧
            NoDup (checkbox_id <$> content_items c) ∧
            htmlFor <$> content_items c = checkbox_id <$> content_items c)
         (contents (tabs (TodoList sel q))).
Proof.
  intros Hids.
  eapply Forall_impl; [apply contents_fmap|].
  intros c (item & todos' & Hitem & Hsub & ->).
  assert (key <$> (item <$> todos') = id <$> todos') as Hkey.
  { rewrite <- list_fmap_compose. apply list_fmap_ext.
    intros ? todo _. apply (renderer_ids item todo Hitem). }
  assert (checkbox_id <$> (item <$> todos') = pretty <$> (id <$> todos')) as Hbox.
  { rewrite <- !list_fmap_compose. apply list_fmap_ext.
    intros ? todo _. apply (renderer_ids item todo Hitem). }
  assert (NoDup (id <$> todos')) as Hsome
    by (eapply sublist_NoDup; [exact Hids|by apply fmap_sublist]).
  rewrite Hkey, Hbox. split; [done|]. split.
  - by apply (NoDup_fmap_2 pretty).
  - rewrite <- !list_fmap_compose. apply list_fmap_ext.
    intros ? todo _. apply (renderer_ids item todo Hitem).
Qed.

Lemma distinct_ids_distinct_keys_witness :
  NoDup (id <$> fetched sample_query "all") ∧
  Forall (λ c,
            NoDup (key <$> content_items c) ∧
            NoDup (checkbox_id <$> content_items c) ∧
            htmlFor <$> content_items c = checkbox_id <$> content_items c)
         (contents (tabs (TodoList "all" sample_query))).
Proof.
  assert (NoDup (id <$> fetched sample_query "all")) as H
    by (apply (bool_decide_unpack _); vm_compute; exact I).
  split; [exact H|].
  exact (distinct_ids_distinct_keys "all" sample_query H).
Defined.

Lemma two_statuses_partition (todos : list Todo) :
  Forall (λ todo, is_TodoStatus (status todo)) todos →
  (filter (λ todo, status todo === "pending") todos
   ++ filter (λ todo, status todo === "completed") todos)%list ≡ₚ todos.
Proof.
  induction 1 as [|todo todos Hst _ IH]; [done|].
  rewrite !filter_cons.
  destruct Hst as [Hst|Hst]; rewrite Hst; eval_strict_eq; cbn;
    repeat case_decide; try done.
  - by rewrite <- Permutation_middle, IH.
  - by rewrite <- app_comm_cons, IH.
Qed.

(** X7. When every fetched todo has one of the two statuses, the "pending"
    and the "completed" list of a tree together hold the todos of its "all"
    list, each once. *)
Theorem pending_and_completed_partition (sel : string) (q : UseQueryResult) :
  Forall (λ todo, is_TodoStatus (status todo)) (fetched q sel) →
  key <$> (shown (tabs (TodoList sel q)) "pending"
           ++ shown (tabs (TodoList sel q)) "completed")%list
  ≡ₚ key <$> shown (tabs (TodoList sel q)) "all" ∧
  (length (shown (tabs (TodoList sel q)) "pending")
   + length (shown (tabs (TodoList sel q)) "completed")
   = length (shown (tabs (TodoList sel q)) "all"))%nat.
Proof.
  intros Hst. rewrite !shown_cases. eval_strict_eq.
  pose proof (two_statuses_partition _ Hst) as Hperm. split.
  - rewrite fmap_app, <- !list_fmap_compose.
    change (key ∘ pending_item) with id.
    change (key ∘ completed_item) with id.
    change (key ∘ all_item) with id.
    by rewrite <- fmap_app, Hperm.
  - rewrite !length_fmap, <- length_app. by rewrite Hperm.
Qed.

Lemma pending_and_completed_partition_witness :
  Forall (λ todo, is_TodoStatus (status todo)) (fetched sample_query "all") ∧
  (length (shown (tabs (TodoList "all" sample_query)) "pending")
   + length (shown (tabs (TodoList "all" sample_query)) "completed")
   = length (shown (tabs (TodoList "all" sample_query)) "all"))%nat.
Proof.
  assert (Forall (λ todo, is_TodoStatus (status todo))
            (fetched sample_query "all")) as H.
  { change (fetched sample_query "all") with sample.
    repeat apply Forall_cons_2; [| | |apply Forall_nil_2];
      unfold is_TodoStatus; cbn; auto. }
  split; [exact H|].
  apply (pending_and_completed_partition "all" sample_query H).
Defined.

(** X8. When the query hook answers each input with todos of the statuses
    asked for only, the filter of a tab removes nothing: in every state a
    session reaches, every fetched todo is on screen. *)
Theorem honoured_statuses_hide_nothing (q0 q : UseQueryResult) (trace : Trace) :
  honours_statuses q →
  listed q0 trace q = fetched q (selectedStatus (reached q0 trace)) ∧
  Forall2 renders (fetched q (selectedStatus (reached q0 trace)))
          (screen q0 trace q).
Proof.
  intros Hq.
  assert (listed q0 trace q = fetched q (selectedStatus (reached q0 trace)))
    as Hlisted.
  { unfold listed, narrowed, fetched.
    destruct (reached_synced q0 trace) as [_ [->|[->| ->]]];
      eval_strict_eq; [reflexivity| |];
      apply filter_all; eapply Forall_impl; [apply Hq| |apply Hq|];
      intros todo Hin; by apply list_elem_of_singleton in Hin. }
  split; [exact Hlisted|].
  rewrite <- Hlisted, screen_fmap.
  apply Forall2_fmap_renders, tab_item_renders.
Qed.

Lemma sample_query_honours : honours_statuses sample_query.
Proof.
  intros sts. unfold sample_query. cbn [default].
  apply Forall_forall. intros todo Hin.
  by apply list_elem_of_filter in Hin as [Hst _].
Qed.

Lemma honoured_statuses_hide_nothing_witness :
  honours_statuses sample_query ∧
  listed sample_query [(sample_query, select_trigger 1%nat)] sample_query
  = fetched sample_query "pending".
Proof.
  split; [exact sample_query_honours|].
  apply (honoured_statuses_hide_nothing sample_query sample_query
           [(sample_query, select_trigger 1%nat)] sample_query_honours).
Defined.

(** *** The calls of a session, lines 76-104 *)

Lemma flip_status_is_TodoStatus (s : string) : is_TodoStatus (flip_status s).
Proof. unfold flip_status, is_TodoStatus. destruct (s === "pending"); auto. Qed.

Lemma statuses_well_formed (sel : string) :
  is_filter sel →
  statuses sel ≠ [] ∧ NoDup (statuses sel) ∧ Forall is_TodoStatus (statuses sel).
Proof.
  unfold is_TodoStatus.
  intros [->|[->| ->]]; (split; [discriminate|]);
    (split; [apply (bool_decide_unpack _); vm_compute; exact I|]);
    repeat apply Forall_cons_2; try apply Forall_nil_2; auto.
Qed.

Lemma step_well_formed (q : UseQueryResult) (st : Mounted) (ev : Event) :
  Forall well_formed (step q st ev).2.
Proof.
  rewrite step_cases. destruct ev as [i|i|i|p]; cbn [snd].
  - destruct i as [|[|[|i]]]; cbn; each_effect;
      unfold well_formed, is_filter; auto.
  - destruct (shown _ _ !! i) as [it|] eqn:E; [|constructor].
    apply shown_renders in E as (todo & _ & _ & _ & H & _).
    cbn [from_option]. rewrite H. each_effect.
    apply flip_status_is_TodoStatus.
  - destruct (shown _ _ !! i) as [it|] eqn:E; [|constructor].
    apply shown_renders in E as (todo & _ & _ & _ & _ & H).
    cbn [from_option]. rewrite H. by each_effect.
  - destruct p; cbn; by each_effect.
Qed.

Lemma effects_well_formed (trace : Trace) (st : Mounted) :
  synced st → Forall well_formed (effects st trace).
Proof.
  revert st. induction trace as [|[q ev] trace IH]; intros st Hst;
    [constructor|].
  cbn [effects]. rewrite !Forall_app. split; [|split].
  - each_effect. apply statuses_well_formed, Hst.
  - apply step_well_formed.
  - apply IH, step_synced, Hst.
Qed.

(** X9. Every effect of every session fits the procedures: each query asks
    [todo.getAll] for a non-empty list of distinct statuses, each update
    carries one of the two statuses, whatever status the todo had, each
    refetch is of [todo.getAll], and the setter is only given one of the
    three filters. *)
Theorem session_well_formed (q0 : UseQueryResult) (trace : Trace) :
  Forall well_formed (session q0 trace).
Proof.
  unfold session. rewrite !Forall_app. split; [|split].
  - each_effect. apply statuses_well_formed. by left.
  - by each_effect.
  - apply effects_well_formed, mount_synced.
Qed.

(** X10. A mutation is only ever about a todo of the list fetched for the
    render in which the event fired: the ids that the effects of a step
    carry are ids of fetched todos. *)
Theorem mutations_target_fetched
    (q : UseQueryResult) (st : Mounted) (ev : Event) :
  omap target (step q st ev).2 ⊆ id <$> fetched q (selectedStatus st).
Proof.
  rewrite step_cases. destruct ev as [i|i|i|p]; cbn [snd].
  - destruct i as [|[|[|i]]]; cbn; apply list_subseteq_nil.
  - destruct (shown _ _ !! i) as [it|] eqn:E; [|apply list_subseteq_nil].
    apply shown_from_fetched in E as (todo & Hin & _ & _ & _ & H & _).
    cbn [from_option]. rewrite H. cbn.
    intros x Hx. apply list_elem_of_singleton in Hx as ->.
    by apply list_elem_of_fmap_2.
  - destruct (shown _ _ !! i) as [it|] eqn:E; [|apply list_subseteq_nil].
    apply shown_from_fetched in E as (todo & Hin & _ & _ & _ & _ & H).
    cbn [from_option]. rewrite H. cbn.
    intros x Hx. apply list_elem_of_singleton in Hx as ->.
    by apply list_elem_of_fmap_2.
  - destruct p; cbn; apply list_subseteq_nil.
Qed.

(** The effects of one step, counted by kind. *)
Lemma step_counts (q : UseQueryResult) (st : Mounted) (ev : Event) :
  length (filter is_refetch (step q st ev).2)
    = (if success_event (q, ev) then 1 else 0)%nat ∧
  (length (filter is_mutate (step q st ev).2)
    ≤ if item_event (q, ev) then 1 else 0)%nat ∧
  filter is_animate (step q st ev).2 = [].
Proof.
  rewrite step_cases. destruct ev as [i|i|i|p]; cbn [snd].
  - destruct i as [|[|[|i]]]; cbn; auto.
  - destruct (shown _ _ !! i) as [it|] eqn:E; [|cbn; auto with lia].
    apply shown_renders in E as (todo & _ & _ & _ & H & _).
    cbn [from_option]. rewrite H. cbn. auto.
  - destruct (shown _ _ !! i) as [it|] eqn:E; [|cbn; auto with lia].
    apply shown_renders in E as (todo & _ & _ & _ & _ & H).
    cbn [from_option]. rewrite H. cbn. auto.
  - destruct p; cbn; auto.
Qed.

(** A render performs its query and nothing else. *)
Lemma render_counts (sel : string) (q : UseQueryResult) :
  filter is_refetch (queries (TodoList sel q)) = [] ∧
  filter is_mutate (queries (TodoList sel q)) = [] ∧
  filter is_animate (queries (TodoList sel q)) = [].
Proof. by repeat split. Qed.

Lemma effects_counts (trace : Trace) (st : Mounted) :
  length (filter is_refetch (effects st trace))
    = length (filter success_event trace) ∧
  (length (filter is_mutate (effects st trace))
    ≤ length (filter item_event trace))%nat ∧
  filter is_animate (effects st trace) = [].
Proof.
  revert st. induction trace as [|[q ev] trace IH]; intros st; [by cbn|].
  cbn [effects].
  destruct (step_counts q st ev) as (Hr & Hm & Ha).
  destruct (IH (step q st ev).1) as (IHr & IHm & IHa).
  destruct (render_counts (selectedStatus st) q) as (Qr & Qm & Qa).
  rewrite !filter_app, !length_app, Ha, IHa, Hr, IHr, Qr, Qm, Qa.
  rewrite !filter_cons.
  destruct (success_event (q, ev)), (item_event (q, ev));
    repeat case_decide; cbn in *; try done; repeat split; lia.
Qed.

(** X11. A session performs one refetch for every success of one of its two
    mutations and none otherwise, and at most one mutation for every checkbox
    or delete button that fired; a session in which none fired performs no
    mutation. *)
Theorem refetch_per_success (q0 : UseQueryResult) (trace : Trace) :
  length (filter is_refetch (session q0 trace))
    = length (filter success_event trace) ∧
  (length (filter is_mutate (session q0 trace))
    ≤ length (filter item_event trace))%nat.
Proof.
  unfold session.
  destruct (effects_counts trace (mount q0)) as (Hr & Hm & _).
  destruct (render_counts initial_selectedStatus q0) as (Qr & Qm & _).
  rewrite !filter_app, !length_app, Hr, Qr, Qm.
  change (filter is_refetch (useEffect_body true)) with (@nil Effect).
  change (filter is_mutate (useEffect_body true)) with (@nil Effect).
  cbn. split; lia.
Qed.

(** X12. The list animation is set up once in a session, after mount; no
    event sets it up again. *)
Theorem animation_set_up_once (q0 : UseQueryResult) (trace : Trace) :
  filter is_animate (session q0 trace) = [AutoAnimate] ∧
  filter is_animate (effects (mount q0) trace) = [].
Proof.
  unfold session.
  destruct (effects_counts trace (mount q0)) as (_ & _ & Ha).
  destruct (render_counts initial_selectedStatus q0) as (_ & _ & Qa).
  by rewrite !filter_app, Ha, Qa.
Qed.

(** *** Selecting a tab, lines 116-121 *)

(** X13. Activating a trigger makes its value both the selected filter and
    the tab shown, whatever was selected before; activating it again changes
    nothing; and the next render queries the statuses of that filter and
    shows the fetched todos narrowed by it. *)
Theorem select_trigger_sets_filter
    (q q' : UseQueryResult) (st : Mounted) (i : nat) (v : string) :
  (trigger_value <$> triggers (tabs (TodoList (selectedStatus st) q))) !! i
    = Some v →
  (step q st (select_trigger i)).1 = {| selectedStatus := v; tabs_value := v |} ∧
  (step q' (step q st (select_trigger i)).1 (select_trigger i)).1
    = (step q st (select_trigger i)).1 ∧
  queries (TodoList (selectedStatus (step q st (select_trigger i)).1) q')
    = [UseQuery todo_getAll (GetAllInput (statuses v))] ∧
  shown (tabs (TodoList (selectedStatus (step q st (select_trigger i)).1) q'))
        (tabs_value (step q st (select_trigger i)).1)
    = tab_item v <$> narrowed v (fetched q' v).
Proof.
  rewrite trigger_values. intros Hi.
  rewrite !step_cases, Hi. cbn [fst selectedStatus tabs_value].
  split; [done|]. split; [done|]. split; [done|].
  apply shown_fmap.
  destruct i as [|[|[|i]]]; simplify_eq/=; unfold is_filter; auto.
Qed.

Lemma select_trigger_sets_filter_witness :
  (trigger_value <$>
     triggers (tabs (TodoList (selectedStatus (mount sample_query)) sample_query)))
    !! 2%nat = Some "completed" ∧
  (step sample_query (mount sample_query) (select_trigger 2)).1
    = {| selectedStatus := "completed"; tabs_value := "completed" |}.
Proof.
  split; [reflexivity|].
  apply (select_trigger_sets_filter sample_query sample_query
           (mount sample_query) 2%nat "completed").
  reflexivity.
Defined.
